(** * logitest: the sample assertion for PDF documents

    The README and the notebook of the repository walk through the
    registration of a custom type: a load and a dump function for PDF
    documents and [assert_documents_equal], the assertion that compares
    two documents page by page.  This development embeds
    [assert_documents_equal] and proves what it accepts and what it
    rejects.

    Python values are embedded as follows.
    - a [bytes] object is a [list byte]; iterating it yields ints in 0..255;
    - an [int] is a [Z];
    - a call that may raise returns a [result];
    - the file system is an explicit store, read by [fitz.open]. *)

From Stdlib Require Import ZArith Lia Strings.Byte.
From stdpp Require Import base option list strings pretty gmap.

Open Scope Z_scope.

(** ** Python exceptions and results *)

Inductive exception :=
  | AssertionError (msg : string)
  | FileNotFoundError (filename : string)
  | IndexError (msg : string).

Inductive result (A : Type) :=
  | Return (a : A)
  | Raise (e : exception).
Arguments Return {A} a.
Arguments Raise {A} e.

#[global] Instance result_ret : MRet result := λ A a, Return a.
#[global] Instance result_bind : MBind result := λ A B f r,
  match r with
  | Return a => f a
  | Raise e => Raise e
  end.

Definition is_assertion_error {A} (r : result A) : Prop :=
  ∃ msg, r = Raise (AssertionError msg).

#[global] Instance exception_eq_dec : EqDecision exception.
Proof. solve_decision. Defined.

(** ** Bytes *)

#[global] Instance byte_eq_dec : EqDecision byte.
Proof.
  intros a b. destruct (Byte.eqb a b) eqn:E.
  - left. by apply Byte.byte_dec_bl.
  - right. intros ->. by rewrite Byte.byte_dec_lb in E.
Defined.

Definition int_of_byte (b : byte) : Z := Z.of_N (Byte.to_N b).

(** ** The part of PyMuPDF ([fitz]) that the sample code calls

    A document is the sequence of its pages ([len(doc)], [doc[i]]); a page
    is known by the pixmap [get_pixmap()] renders; a pixmap exposes [size]
    and [samples].  [fitz.open(path)] reads the store and raises when
    there is no such file. *)

Module fitz.

Record Pixmap := { size : Z; samples : list byte }.

Record Page := { get_pixmap : Pixmap }.

Definition Document := list Page.

Definition FileSystem := gmap string Document.

Definition open (fs : gmap string Document) (filename : string) : result Document :=
  match fs !! filename with
  | Some doc => Return doc
  | None => Raise (FileNotFoundError filename)
  end.

(** [doc[page_num]] for a non-negative index. *)
Definition getitem (doc : Document) (page_num : nat) : result Page :=
  match doc !! page_num with
  | Some page => Return page
  | None => Raise (IndexError "page not in document")
  end.

End fitz.

#[global] Instance Pixmap_eq_dec : EqDecision fitz.Pixmap.
Proof. solve_decision. Defined.

(** ** [assert_documents_equal] (README, "Add custom Assertion mappings") *)

(** [sum(abs(a - b) for a, b in zip(s1, s2))] *)
Definition samples_diff (s1 s2 : list byte) : Z :=
  foldl Z.add 0 (zip_with (λ a b, Z.abs (int_of_byte a - int_of_byte b)) s1 s2).

(** [pix1.size != pix2.size or pix1.samples != pix2.samples] *)
Definition pixmaps_differ (pix1 pix2 : fitz.Pixmap) : Prop :=
  fitz.size pix1 ≠ fitz.size pix2 ∨ fitz.samples pix1 ≠ fitz.samples pix2.

#[global] Instance pixmaps_differ_dec pix1 pix2 : Decision (pixmaps_differ pix1 pix2).
Proof. unfold pixmaps_differ. apply _. Defined.

Definition page_count_message (n1 n2 : nat) : string :=
  "Documents have different number of pages: " +:+ pretty n1 +:+ " != " +:+ pretty n2.

Definition page_differs_message (page_num : nat) (tolerance diff : Z) : string :=
  "Page " +:+ pretty (page_num + 1)%nat +:+ " differs beyond tolerance level "
  +:+ pretty tolerance +:+ ". " +:+ "Difference: " +:+ pretty diff +:+ ".".

(** The body of the [for] loop at one [page_num]. *)
Definition compare_page (doc1 doc2 : fitz.Document) (tolerance : Z) (page_num : nat)
  : result unit :=
  page1 ← fitz.getitem doc1 page_num;
  let pix1 := fitz.get_pixmap page1 in
  page2 ← fitz.getitem doc2 page_num;
  let pix2 := fitz.get_pixmap page2 in
  if decide (pixmaps_differ pix1 pix2) then
    let diff := samples_diff (fitz.samples pix1) (fitz.samples pix2) in
    if decide (diff > tolerance) then
      Raise (AssertionError (page_differs_message page_num tolerance diff))
    else Return ()
  else Return ().

(** [for page_num in range: ...] *)
Fixpoint for_pages (doc1 doc2 : fitz.Document) (tolerance : Z) (range : list nat)
  : result unit :=
  match range with
  | [] => Return ()
  | page_num :: range' =>
      compare_page doc1 doc2 tolerance page_num ≫= λ _,
      for_pages doc1 doc2 tolerance range'
  end.

Definition assert_documents_equal (fs : gmap string fitz.Document)
    (doc1_path doc2_path : string) (tolerance : Z) : result bool :=
  doc1 ← fitz.open fs doc1_path;
  doc2 ← fitz.open fs doc2_path;
  if decide (length doc1 ≠ length doc2) then
    Raise (AssertionError (page_count_message (length doc1) (length doc2)))
  else
    for_pages doc1 doc2 tolerance (seq 0 (length doc1)) ≫= λ _,
    Return true.

(** The default of the keyword argument: [tolerance=0]. *)
Definition default_tolerance : Z := 0.

(** ** Outcomes of the comparison *)

(** A page pair fails the comparison: the pixmaps differ and the summed
    difference of their samples exceeds the tolerance. *)
Definition differs_beyond_tolerance (tolerance : Z) (pix1 pix2 : fitz.Pixmap) : Prop :=
  pixmaps_differ pix1 pix2 ∧
  samples_diff (fitz.samples pix1) (fitz.samples pix2) > tolerance.

#[global] Instance differs_beyond_tolerance_dec tolerance pix1 pix2 :
  Decision (differs_beyond_tolerance tolerance pix1 pix2).
Proof. unfold differs_beyond_tolerance. apply _. Defined.

(** Some page of two documents fails the comparison. *)
Definition some_page_differs (tolerance : Z) (doc1 doc2 : fitz.Document) : Prop :=
  ∃ (page_num : nat) (page1 page2 : fitz.Page),
    doc1 !! page_num = Some page1 ∧ doc2 !! page_num = Some page2 ∧
    differs_beyond_tolerance tolerance (fitz.get_pixmap page1) (fitz.get_pixmap page2).

(** Sample documents used to run the definitions. *)
Definition sample_page (sz : Z) (s : list byte) : fitz.Page :=
  {| fitz.get_pixmap := {| fitz.size := sz; fitz.samples := s |} |}.

Definition doc_a : fitz.Document := [sample_page 3 [x01; x02; x03]; sample_page 1 [xff]].
Definition doc_b : fitz.Document := [sample_page 3 [x01; x02; x03]; sample_page 1 [xfd]].
Definition doc_c : fitz.Document := [sample_page 3 [x01; x02; x03]].
Definition doc_d : fitz.Document := [sample_page 4 [x01; x02; x03]; sample_page 1 [xff]].

Definition sample_fs : gmap string fitz.Document :=
  <[ "a.pdf" := doc_a ]> (<[ "b.pdf" := doc_b ]> (<[ "c.pdf" := doc_c ]>
  (<[ "d.pdf" := doc_d ]> ∅))).

(** The samples of the pixmap a page renders to. *)
Definition page_samples (page : fitz.Page) : list byte :=
  fitz.samples (fitz.get_pixmap page).

(** A page pair passes the comparison of the loop body. *)
Definition pages_agree (tolerance : Z) (page1 page2 : fitz.Page) : Prop :=
  ¬ differs_beyond_tolerance tolerance (fitz.get_pixmap page1) (fitz.get_pixmap page2).

(** More sample documents: [doc_e] is [doc_a] with the first page's samples
    cut short, [doc_f] is two steps further from [doc_a] than [doc_b]. *)
Definition doc_e : fitz.Document := [sample_page 2 [x01; x02]; sample_page 1 [xff]].
Definition doc_f : fitz.Document := [sample_page 3 [x01; x02; x03]; sample_page 1 [xfb]].

Definition sample_fs2 : gmap string fitz.Document :=
  <[ "e.pdf" := doc_e ]> (<[ "f.pdf" := doc_f ]> sample_fs).

(** * Properties of [assert_documents_equal] *)

Lemma result_bind_Return {A B} (f : A → result B) (a : A) :
  Return a ≫= f = f a.
Proof. reflexivity. Qed.

Lemma result_bind_Raise {A B} (f : A → result B) (e : exception) :
  (Raise e : result A) ≫= f = Raise e.
Proof. reflexivity. Qed.

Lemma getitem_Some (doc : fitz.Document) (i : nat) (page : fitz.Page) :
  doc !! i = Some page → fitz.getitem doc i = Return page.
Proof. intros H. unfold fitz.getitem. by rewrite H. Qed.

(** On an index both documents have, the loop body raises exactly on a
    failing page pair, and then with the message of that page. *)
Lemma compare_page_lookup (doc1 doc2 : fitz.Document) tolerance i page1 page2 :
  doc1 !! i = Some page1 → doc2 !! i = Some page2 →
  compare_page doc1 doc2 tolerance i =
    if decide (differs_beyond_tolerance tolerance
                 (fitz.get_pixmap page1) (fitz.get_pixmap page2))
    then Raise (AssertionError (page_differs_message i tolerance
            (samples_diff (fitz.samples (fitz.get_pixmap page1))
                          (fitz.samples (fitz.get_pixmap page2)))))
    else Return ().
Proof.
  intros H1 H2. unfold compare_page.
  rewrite (getitem_Some _ _ _ H1), result_bind_Return.
  rewrite (getitem_Some _ _ _ H2), result_bind_Return.
  unfold differs_beyond_tolerance.
  destruct (decide (pixmaps_differ _ _)) as [Hp|Hp].
  - destruct (decide (_ > _)) as [Hgt|Hgt].
    + by rewrite decide_True.
    + rewrite decide_False; [done|]. by intros [_ ?].
  - rewrite decide_False; [done|]. by intros [? _].
Qed.

(** The loop over a range of valid page numbers either completes, and then
    no page of the range fails, or raises the [AssertionError] of a
    failing page of the range. *)
Lemma for_pages_cases (doc1 doc2 : fitz.Document) tolerance (range : list nat) :
  Forall (λ i, is_Some (doc1 !! i) ∧ is_Some (doc2 !! i)) range →
  (for_pages doc1 doc2 tolerance range = Return () ∧
   ∀ i page1 page2, i ∈ range → doc1 !! i = Some page1 → doc2 !! i = Some page2 →
     ¬ differs_beyond_tolerance tolerance
         (fitz.get_pixmap page1) (fitz.get_pixmap page2))
  ∨
  (∃ i page1 page2, i ∈ range ∧ doc1 !! i = Some page1 ∧ doc2 !! i = Some page2 ∧
     differs_beyond_tolerance tolerance
       (fitz.get_pixmap page1) (fitz.get_pixmap page2) ∧
     for_pages doc1 doc2 tolerance range =
       Raise (AssertionError (page_differs_message i tolerance
         (samples_diff (fitz.samples (fitz.get_pixmap page1))
                       (fitz.samples (fitz.get_pixmap page2)))))).
Proof.
  induction 1 as [|i range [[page1 H1] [page2 H2]] _ IH]; simpl.
  - left. split; [done|]. intros i ? ? Hi. by apply elem_of_nil in Hi.
  - rewrite (compare_page_lookup _ _ _ _ _ _ H1 H2).
    case_decide as Hd.
    + right. exists i, page1, page2. rewrite result_bind_Raise.
      split_and!; [by apply elem_of_cons; left|done..].
    + rewrite result_bind_Return.
      destruct IH as [[-> Hok]|(j & q1 & q2 & Hj & ? & ? & ? & ->)].
      * left. split; [done|].
        intros j q1 q2 [->|Hj]%elem_of_cons ? ?; [|by eapply Hok].
        by simplify_eq.
      * right. exists j, q1, q2. split_and!; [by apply elem_of_cons; right|done..].
Qed.

(** The page named in the message is the first failing one: the loop
    stops there, and every page number before it in the range passed. *)
Lemma for_pages_first (doc1 doc2 : fitz.Document) tolerance (range : list nat) e :
  Forall (λ i, is_Some (doc1 !! i) ∧ is_Some (doc2 !! i)) range →
  for_pages doc1 doc2 tolerance range = Raise e →
  ∃ before i after page1 page2,
    range = before ++ i :: after ∧
    for_pages doc1 doc2 tolerance before = Return () ∧
    doc1 !! i = Some page1 ∧ doc2 !! i = Some page2 ∧
    differs_beyond_tolerance tolerance
      (fitz.get_pixmap page1) (fitz.get_pixmap page2) ∧
    e = AssertionError (page_differs_message i tolerance
          (samples_diff (fitz.samples (fitz.get_pixmap page1))
                        (fitz.samples (fitz.get_pixmap page2)))).
Proof.
  induction 1 as [|i range [[page1 H1] [page2 H2]] _ IH]; simpl; [done|].
  rewrite (compare_page_lookup _ _ _ _ _ _ H1 H2).
  case_decide as Hd.
  - rewrite result_bind_Raise. intros [= <-].
    by exists [], i, range, page1, page2.
  - rewrite result_bind_Return. intros He.
    destruct (IH He) as (before & j & after & q1 & q2 & -> & Hb & ? & ? & ? & ->).
    exists (i :: before), j, after, q1, q2. split_and!; try done.
    simpl. rewrite (compare_page_lookup _ _ _ _ _ _ H1 H2).
    by rewrite decide_False, result_bind_Return.
Qed.

Lemma range_valid (doc1 doc2 : fitz.Document) :
  length doc1 = length doc2 →
  Forall (λ i, is_Some (doc1 !! i) ∧ is_Some (doc2 !! i)) (seq 0 (length doc1)).
Proof.
  intros Hlen. apply Forall_forall. intros i Hi.
  apply elem_of_seq in Hi.
  split; apply lookup_lt_is_Some; lia.
Qed.

(** With both files present, the function unfolds to the page-count test
    followed by the loop. *)
Lemma assert_documents_equal_opened fs p1 p2 tolerance doc1 doc2 :
  fitz.open fs p1 = Return doc1 → fitz.open fs p2 = Return doc2 →
  assert_documents_equal fs p1 p2 tolerance =
    if decide (length doc1 ≠ length doc2) then
      Raise (AssertionError (page_count_message (length doc1) (length doc2)))
    else for_pages doc1 doc2 tolerance (seq 0 (length doc1)) ≫= λ _, Return true.
Proof.
  intros H1 H2. unfold assert_documents_equal.
  by rewrite H1, result_bind_Return, H2, result_bind_Return.
Qed.

(** With both files present there are three outcomes, each with its
    message: the page counts differ; no page fails and the result is
    [True]; some page fails and its [AssertionError] is raised. *)
Lemma assert_documents_equal_cases fs p1 p2 tolerance doc1 doc2 :
  fitz.open fs p1 = Return doc1 → fitz.open fs p2 = Return doc2 →
  (length doc1 ≠ length doc2 ∧
   assert_documents_equal fs p1 p2 tolerance =
     Raise (AssertionError (page_count_message (length doc1) (length doc2))))
  ∨
  (length doc1 = length doc2 ∧ ¬ some_page_differs tolerance doc1 doc2 ∧
   assert_documents_equal fs p1 p2 tolerance = Return true)
  ∨
  (length doc1 = length doc2 ∧
   ∃ i page1 page2, doc1 !! i = Some page1 ∧ doc2 !! i = Some page2 ∧
     differs_beyond_tolerance tolerance
       (fitz.get_pixmap page1) (fitz.get_pixmap page2) ∧
     assert_documents_equal fs p1 p2 tolerance =
       Raise (AssertionError (page_differs_message i tolerance
         (samples_diff (fitz.samples (fitz.get_pixmap page1))
                       (fitz.samples (fitz.get_pixmap page2)))))).
Proof.
  intros H1 H2.
  rewrite (assert_documents_equal_opened _ _ _ _ _ _ H1 H2).
  case_decide as Hlen; [by left|right].
  assert (length doc1 = length doc2) as Hlen' by lia.
  destruct (for_pages_cases doc1 doc2 tolerance _ (range_valid _ _ Hlen'))
    as [[-> Hok]|(i & q1 & q2 & Hi & Hq1 & Hq2 & Hd & ->)].
  - left. split_and!; [done| |done].
    intros (i & q1 & q2 & Hq1 & Hq2 & Hd).
    eapply Hok; [|done..].
    apply elem_of_seq. apply lookup_lt_Some in Hq1. lia.
  - right. split; [done|]. by exists i, q1, q2.
Qed.

(** C6. With both documents opened: different page counts raise
    [AssertionError]; with equal page counts, [AssertionError] is raised
    exactly when some page's pixmaps differ (in size or samples) and the
    summed absolute difference of their samples exceeds the tolerance; in
    every other case the result is [True]. *)
Theorem assert_documents_equal_spec fs doc1_path doc2_path tolerance doc1 doc2 :
  fitz.open fs doc1_path = Return doc1 →
  fitz.open fs doc2_path = Return doc2 →
  (length doc1 ≠ length doc2 →
     is_assertion_error (assert_documents_equal fs doc1_path doc2_path tolerance)) ∧
  (length doc1 = length doc2 →
     (is_assertion_error (assert_documents_equal fs doc1_path doc2_path tolerance)
      ↔ some_page_differs tolerance doc1 doc2)) ∧
  (¬ is_assertion_error (assert_documents_equal fs doc1_path doc2_path tolerance) →
     assert_documents_equal fs doc1_path doc2_path tolerance = Return true).
Proof.
  intros H1 H2.
  destruct (assert_documents_equal_cases fs doc1_path doc2_path tolerance
              doc1 doc2 H1 H2)
    as [[Hlen ->]|[(Hlen & Hno & ->)|(Hlen & i & q1 & q2 & Hq1 & Hq2 & Hd & ->)]].
  - split_and!.
    + intros _. by eexists.
    + done.
    + intros Hn. destruct Hn. by eexists.
  - split_and!; [done| |done].
    intros _. split; [by intros [msg ?]|done].
  - split_and!.
    + done.
    + intros _. split; [|by eexists].
      intros _. by exists i, q1, q2.
    + intros Hn. destruct Hn. by eexists.
Qed.

Lemma assert_documents_equal_spec_witness :
  fitz.open sample_fs "a.pdf" = Return doc_a ∧
  fitz.open sample_fs "b.pdf" = Return doc_b ∧
  (length doc_a ≠ length doc_b →
     is_assertion_error (assert_documents_equal sample_fs "a.pdf" "b.pdf" 1)) ∧
  (length doc_a = length doc_b →
     (is_assertion_error (assert_documents_equal sample_fs "a.pdf" "b.pdf" 1)
      ↔ some_page_differs 1 doc_a doc_b)) ∧
  (¬ is_assertion_error (assert_documents_equal sample_fs "a.pdf" "b.pdf" 1) →
     assert_documents_equal sample_fs "a.pdf" "b.pdf" 1 = Return true).
Proof.
  split; [reflexivity|]. split; [reflexivity|].
  apply (assert_documents_equal_spec sample_fs "a.pdf" "b.pdf" 1 doc_a doc_b);
    reflexivity.
Defined.

(** The function never returns anything but [True], and raises nothing but
    [AssertionError], once both files open. *)
Lemma assert_documents_equal_total fs p1 p2 tolerance doc1 doc2 :
  fitz.open fs p1 = Return doc1 → fitz.open fs p2 = Return doc2 →
  assert_documents_equal fs p1 p2 tolerance = Return true ∨
  is_assertion_error (assert_documents_equal fs p1 p2 tolerance).
Proof.
  intros H1 H2.
  destruct (assert_documents_equal_cases fs p1 p2 tolerance doc1 doc2 H1 H2)
    as [[_ ->]|[(_ & _ & ->)|(_ & i & q1 & q2 & _ & _ & _ & ->)]].
  - right. by eexists.
  - by left.
  - right. by eexists.
Qed.

(** A missing file is reported by [fitz.open], before any comparison. *)
Lemma assert_documents_equal_missing fs p1 p2 tolerance :
  fs !! p1 = None →
  assert_documents_equal fs p1 p2 tolerance = Raise (FileNotFoundError p1).
Proof. intros H. unfold assert_documents_equal, fitz.open. by rewrite H. Qed.

(** X1. Pixmaps that are equal in size and samples are not compared
    further: a document is found equal to itself at every tolerance,
    negative ones included. *)
Lemma assert_documents_equal_same fs p tolerance doc :
  fitz.open fs p = Return doc →
  assert_documents_equal fs p p tolerance = Return true.
Proof.
  intros H.
  destruct (assert_documents_equal_cases fs p p tolerance doc doc H H)
    as [[Hlen _]|[(_ & _ & ->)|(_ & i & q1 & q2 & Hq1 & Hq2 & [[Hs|Hs] _] & _)]];
    [done|done|simplify_eq; done..].
Qed.

Lemma assert_documents_equal_same_witness :
  fitz.open sample_fs "a.pdf" = Return doc_a ∧
  assert_documents_equal sample_fs "a.pdf" "a.pdf" (-5) = Return true.
Proof.
  split; [reflexivity|].
  apply (assert_documents_equal_same sample_fs "a.pdf" (-5) doc_a). reflexivity.
Defined.

Example assert_documents_equal_over_tolerance :
  assert_documents_equal sample_fs "a.pdf" "b.pdf" 1 =
    Raise (AssertionError "Page 2 differs beyond tolerance level 1. Difference: 2.").
Proof. vm_compute. reflexivity. Qed.

Example assert_documents_equal_within_tolerance :
  assert_documents_equal sample_fs "a.pdf" "b.pdf" 2 = Return true.
Proof. vm_compute. reflexivity. Qed.

Example assert_documents_equal_page_count :
  assert_documents_equal sample_fs "a.pdf" "c.pdf" default_tolerance =
    Raise (AssertionError "Documents have different number of pages: 2 != 1").
Proof. vm_compute. reflexivity. Qed.

(** Sizes differ, samples agree: the summed difference is 0, which a
    non-negative tolerance admits and a negative one does not. *)
Example assert_documents_equal_size_only :
  assert_documents_equal sample_fs "a.pdf" "d.pdf" default_tolerance = Return true ∧
  assert_documents_equal sample_fs "a.pdf" "d.pdf" (-1) =
    Raise (AssertionError "Page 1 differs beyond tolerance level -1. Difference: 0.").
Proof. split; vm_compute; reflexivity. Qed.

(** * The summed difference of samples *)

Lemma foldl_add_shift (a : Z) (l : list Z) :
  foldl Z.add a l = a + foldl Z.add 0 l.
Proof.
  revert a. induction l as [|x l IH]; intros a; simpl; [lia|].
  rewrite (IH (a + x)), (IH (0 + x)). lia.
Qed.

Lemma samples_diff_nil_l (s : list byte) : samples_diff [] s = 0.
Proof. reflexivity. Qed.

Lemma samples_diff_nil_r (s : list byte) : samples_diff s [] = 0.
Proof. by destruct s. Qed.

Lemma samples_diff_cons (a b : byte) (s1 s2 : list byte) :
  samples_diff (a :: s1) (b :: s2) =
    Z.abs (int_of_byte a - int_of_byte b) + samples_diff s1 s2.
Proof. unfold samples_diff. simpl. by rewrite foldl_add_shift. Qed.

Lemma int_of_byte_range (b : byte) : 0 ≤ int_of_byte b ≤ 255.
Proof.
  unfold int_of_byte. pose proof (Byte.to_N_bounded b). lia.
Qed.

Lemma int_of_byte_inj (a b : byte) : int_of_byte a = int_of_byte b → a = b.
Proof.
  unfold int_of_byte. intros H%(inj Z.of_N).
  pose proof (Byte.of_to_N a) as Ha. rewrite H, Byte.of_to_N in Ha. by simplify_eq.
Qed.

Lemma samples_diff_range (s1 s2 : list byte) :
  0 ≤ samples_diff s1 s2 ≤ 255 * Z.of_nat (length s1 `min` length s2).
Proof.
  revert s2. induction s1 as [|a s1 IH]; intros [|b s2];
    rewrite ?samples_diff_nil_l, ?samples_diff_nil_r; simpl; try lia.
  rewrite samples_diff_cons.
  pose proof (IH s2). pose proof (int_of_byte_range a). pose proof (int_of_byte_range b).
  lia.
Qed.

Lemma samples_diff_sym (s1 s2 : list byte) : samples_diff s1 s2 = samples_diff s2 s1.
Proof.
  revert s2. induction s1 as [|a s1 IH]; intros [|b s2];
    rewrite ?samples_diff_nil_l, ?samples_diff_nil_r; try done.
  rewrite !samples_diff_cons, (IH s2). lia.
Qed.

Lemma samples_diff_prefix (s t : list byte) : samples_diff s (s ++ t) = 0.
Proof.
  induction s as [|a s IH]; simpl; [done|].
  rewrite samples_diff_cons, IH. lia.
Qed.

Lemma samples_diff_refl (s : list byte) : samples_diff s s = 0.
Proof. rewrite <-(app_nil_r s) at 2. apply samples_diff_prefix. Qed.

Lemma samples_diff_zero (s1 s2 : list byte) :
  length s1 = length s2 → samples_diff s1 s2 = 0 → s1 = s2.
Proof.
  revert s2. induction s1 as [|a s1 IH]; intros [|b s2] Hlen; simpl in Hlen;
    try done.
  rewrite samples_diff_cons. intros H.
  pose proof (samples_diff_range s1 s2).
  assert (int_of_byte a = int_of_byte b) as ->%int_of_byte_inj by lia.
  f_equal. apply IH; lia.
Qed.

Lemma samples_diff_triangle (s1 s2 s3 : list byte) :
  length s1 = length s2 → length s2 = length s3 →
  samples_diff s1 s3 ≤ samples_diff s1 s2 + samples_diff s2 s3.
Proof.
  revert s2 s3. induction s1 as [|a s1 IH]; intros [|b s2] [|c s3] H12 H23;
    simpl in *; try done.
  rewrite !samples_diff_cons. pose proof (IH s2 s3). lia.
Qed.

(** * When [assert_documents_equal] returns [True] *)

Lemma some_page_differs_Forall2 tolerance (doc1 doc2 : fitz.Document) :
  length doc1 = length doc2 ∧ ¬ some_page_differs tolerance doc1 doc2
  ↔ Forall2 (pages_agree tolerance) doc1 doc2.
Proof.
  rewrite Forall2_same_length_lookup. unfold some_page_differs, pages_agree.
  split; intros [Hlen H]; (split; [done|]).
  - intros i q1 q2 Hq1 Hq2 Hd. apply H. by exists i, q1, q2.
  - intros (i & q1 & q2 & Hq1 & Hq2 & Hd). by eapply H.
Qed.

(** With both files present, [True] is returned exactly when every page
    pair passes. *)
Lemma assert_documents_equal_True fs p1 p2 tolerance doc1 doc2 :
  fitz.open fs p1 = Return doc1 → fitz.open fs p2 = Return doc2 →
  assert_documents_equal fs p1 p2 tolerance = Return true
  ↔ Forall2 (pages_agree tolerance) doc1 doc2.
Proof.
  intros H1 H2. rewrite <-some_page_differs_Forall2.
  destruct (assert_documents_equal_cases fs p1 p2 tolerance doc1 doc2 H1 H2)
    as [[Hlen ->]|[(Hlen & Hno & ->)|(Hlen & i & q1 & q2 & Hq1 & Hq2 & Hd & ->)]].
  - split; [done|]. by intros [? _].
  - done.
  - split; [done|]. intros [_ Hno]. destruct Hno. by exists i, q1, q2.
Qed.

Lemma pages_agree_sym tolerance page1 page2 :
  pages_agree tolerance page1 page2 → pages_agree tolerance page2 page1.
Proof.
  unfold pages_agree, differs_beyond_tolerance, pixmaps_differ.
  rewrite (samples_diff_sym (fitz.samples (fitz.get_pixmap page2))).
  intros H [[Hs|Hs] Hgt]; apply H; (split; [|done]); [left|right]; congruence.
Qed.

Lemma pages_agree_mono tolerance tolerance' page1 page2 :
  tolerance ≤ tolerance' →
  pages_agree tolerance page1 page2 → pages_agree tolerance' page1 page2.
Proof.
  unfold pages_agree, differs_beyond_tolerance. intros Hle H [Hp Hgt].
  apply H. split; [done|lia].
Qed.

(** A non-negative tolerance makes the test on the sizes idle: equal
    samples have difference 0, which never exceeds it. *)
Lemma pages_agree_nonneg tolerance page1 page2 :
  0 ≤ tolerance →
  pages_agree tolerance page1 page2
  ↔ samples_diff (page_samples page1) (page_samples page2) ≤ tolerance.
Proof.
  intros Htol. unfold pages_agree, differs_beyond_tolerance, pixmaps_differ, page_samples.
  split.
  - intros H.
    destruct (decide (fitz.samples (fitz.get_pixmap page1)
                      = fitz.samples (fitz.get_pixmap page2))) as [->|Hne].
    + by rewrite samples_diff_refl.
    + apply Z.le_ngt. intros Hlt. apply H. split; [by right|lia].
  - intros Hle [_ Hgt]. lia.
Qed.

(** A negative tolerance leaves only the test on sizes and samples. *)
Lemma pages_agree_neg tolerance page1 page2 :
  tolerance < 0 →
  pages_agree tolerance page1 page2
  ↔ fitz.get_pixmap page1 = fitz.get_pixmap page2.
Proof.
  intros Htol. unfold pages_agree, differs_beyond_tolerance, pixmaps_differ.
  split.
  - intros H.
    destruct (decide (fitz.get_pixmap page1 = fitz.get_pixmap page2)) as [|Hne];
      [done|].
    destruct H.
    pose proof (samples_diff_range (fitz.samples (fitz.get_pixmap page1))
                                   (fitz.samples (fitz.get_pixmap page2))).
    split; [|lia].
    destruct (decide (fitz.size (fitz.get_pixmap page1)
                      = fitz.size (fitz.get_pixmap page2))) as [Hs|Hs]; [|by left].
    right. intros Hsm. apply Hne.
    destruct (fitz.get_pixmap page1), (fitz.get_pixmap page2). simpl in *.
    by subst.
  - intros -> [[Hs|Hs] _]; done.
Qed.

(** X2. Swapping the two paths does not change whether the documents are
    found equal. *)
Theorem assert_documents_equal_sym fs p1 p2 tolerance doc1 doc2 :
  fitz.open fs p1 = Return doc1 → fitz.open fs p2 = Return doc2 →
  assert_documents_equal fs p1 p2 tolerance = Return true
  ↔ assert_documents_equal fs p2 p1 tolerance = Return true.
Proof.
  intros H1 H2.
  rewrite (assert_documents_equal_True _ _ _ _ _ _ H1 H2),
          (assert_documents_equal_True _ _ _ _ _ _ H2 H1).
  split; intros H; apply Forall2_flip; (eapply Forall2_impl; [exact H|]);
    intros ??; apply pages_agree_sym.
Qed.

Lemma assert_documents_equal_sym_witness :
  fitz.open sample_fs "a.pdf" = Return doc_a ∧
  fitz.open sample_fs "b.pdf" = Return doc_b ∧
  (assert_documents_equal sample_fs "a.pdf" "b.pdf" 2 = Return true
   ↔ assert_documents_equal sample_fs "b.pdf" "a.pdf" 2 = Return true).
Proof.
  split; [reflexivity|]. split; [reflexivity|].
  apply (assert_documents_equal_sym sample_fs "a.pdf" "b.pdf" 2 doc_a doc_b);
    reflexivity.
Defined.

(** X3. Documents found equal at one tolerance are found equal at every
    larger one. *)
Theorem assert_documents_equal_mono fs p1 p2 tolerance tolerance' doc1 doc2 :
  fitz.open fs p1 = Return doc1 → fitz.open fs p2 = Return doc2 →
  tolerance ≤ tolerance' →
  assert_documents_equal fs p1 p2 tolerance = Return true →
  assert_documents_equal fs p1 p2 tolerance' = Return true.
Proof.
  intros H1 H2 Hle.
  rewrite !(assert_documents_equal_True _ _ _ _ _ _ H1 H2).
  intros H. eapply Forall2_impl; [exact H|].
  intros ??. by apply pages_agree_mono.
Qed.

Lemma assert_documents_equal_mono_witness :
  fitz.open sample_fs "a.pdf" = Return doc_a ∧
  fitz.open sample_fs "b.pdf" = Return doc_b ∧
  2 ≤ 7 ∧
  assert_documents_equal sample_fs "a.pdf" "b.pdf" 2 = Return true ∧
  assert_documents_equal sample_fs "a.pdf" "b.pdf" 7 = Return true.
Proof.
  assert (assert_documents_equal sample_fs "a.pdf" "b.pdf" 2 = Return true) as Hr
    by (vm_compute; reflexivity).
  split_and!; [reflexivity|reflexivity|lia|exact Hr|].
  apply (assert_documents_equal_mono sample_fs "a.pdf" "b.pdf" 2 7 doc_a doc_b);
    [reflexivity|reflexivity|lia|exact Hr].
Defined.

(** X4. With a non-negative tolerance the sizes of the pixmaps play no
    part: the documents are found equal exactly when they have as many
    pages and on every page the summed difference of the samples is within
    the tolerance. *)
Theorem assert_documents_equal_nonneg fs p1 p2 tolerance doc1 doc2 :
  fitz.open fs p1 = Return doc1 → fitz.open fs p2 = Return doc2 →
  0 ≤ tolerance →
  assert_documents_equal fs p1 p2 tolerance = Return true
  ↔ Forall2 (λ page1 page2,
       samples_diff (page_samples page1) (page_samples page2) ≤ tolerance)
     doc1 doc2.
Proof.
  intros H1 H2 Htol. rewrite (assert_documents_equal_True _ _ _ _ _ _ H1 H2).
  split; intros H; (eapply Forall2_impl; [exact H|]);
    intros ??; by apply pages_agree_nonneg.
Qed.

Lemma assert_documents_equal_nonneg_witness :
  fitz.open sample_fs "a.pdf" = Return doc_a ∧
  fitz.open sample_fs "d.pdf" = Return doc_d ∧
  0 ≤ 0 ∧
  (assert_documents_equal sample_fs "a.pdf" "d.pdf" 0 = Return true
   ↔ Forall2 (λ page1 page2,
        samples_diff (page_samples page1) (page_samples page2) ≤ 0)
      doc_a doc_d).
Proof.
  split_and!; [reflexivity|reflexivity|lia|].
  apply (assert_documents_equal_nonneg sample_fs "a.pdf" "d.pdf" 0 doc_a doc_d);
    [reflexivity|reflexivity|lia].
Defined.

(** X5. With a negative tolerance the documents are found equal exactly
    when their pages render to the same pixmaps, sizes and samples alike. *)
Theorem assert_documents_equal_neg fs p1 p2 tolerance doc1 doc2 :
  fitz.open fs p1 = Return doc1 → fitz.open fs p2 = Return doc2 →
  tolerance < 0 →
  assert_documents_equal fs p1 p2 tolerance = Return true
  ↔ fitz.get_pixmap <$> doc1 = fitz.get_pixmap <$> doc2.
Proof.
  intros H1 H2 Htol. rewrite (assert_documents_equal_True _ _ _ _ _ _ H1 H2).
  rewrite list_eq_Forall2, Forall2_fmap.
  split; intros H; (eapply Forall2_impl; [exact H|]);
    intros ??; by apply pages_agree_neg.
Qed.

Lemma assert_documents_equal_neg_witness :
  fitz.open sample_fs "a.pdf" = Return doc_a ∧
  fitz.open sample_fs "d.pdf" = Return doc_d ∧
  -1 < 0 ∧
  (assert_documents_equal sample_fs "a.pdf" "d.pdf" (-1) = Return true
   ↔ fitz.get_pixmap <$> doc_a = fitz.get_pixmap <$> doc_d).
Proof.
  split_and!; [reflexivity|reflexivity|lia|].
  apply (assert_documents_equal_neg sample_fs "a.pdf" "d.pdf" (-1) doc_a doc_d);
    [reflexivity|reflexivity|lia].
Defined.

(** X6. The sum runs over the common prefix of the two sample sequences
    only: when on every page one sequence is a prefix of the other, the
    documents are found equal at every non-negative tolerance, although
    the samples may differ. *)
Theorem assert_documents_equal_prefix fs p1 p2 tolerance doc1 doc2 :
  fitz.open fs p1 = Return doc1 → fitz.open fs p2 = Return doc2 →
  0 ≤ tolerance →
  Forall2 (λ page1 page2,
     page_samples page1 `prefix_of` page_samples page2 ∨
     page_samples page2 `prefix_of` page_samples page1) doc1 doc2 →
  assert_documents_equal fs p1 p2 tolerance = Return true.
Proof.
  intros H1 H2 Htol H. rewrite (assert_documents_equal_True _ _ _ _ _ _ H1 H2).
  eapply Forall2_impl; [exact H|].
  intros q1 q2 [[t Ht]|[t Ht]]; apply pages_agree_nonneg; try done.
  - rewrite Ht, samples_diff_prefix. lia.
  - rewrite Ht, samples_diff_sym, samples_diff_prefix. lia.
Qed.

Lemma assert_documents_equal_prefix_witness :
  fitz.open sample_fs2 "e.pdf" = Return doc_e ∧
  fitz.open sample_fs2 "a.pdf" = Return doc_a ∧
  0 ≤ 0 ∧
  page_samples <$> doc_e ≠ page_samples <$> doc_a ∧
  assert_documents_equal sample_fs2 "e.pdf" "a.pdf" 0 = Return true.
Proof.
  split_and!; [reflexivity|reflexivity|lia|discriminate|].
  apply (assert_documents_equal_prefix sample_fs2 "e.pdf" "a.pdf" 0 doc_e doc_a);
    [reflexivity|reflexivity|lia|].
  constructor; [left; exists [x03]; reflexivity|].
  constructor; [left; exists []; reflexivity|]. constructor.
Defined.

(** X7. At tolerance 0, for documents whose pages have sample sequences
    of equal length pairwise, being found equal is having the same samples
    on every page. *)
Theorem assert_documents_equal_exact fs p1 p2 doc1 doc2 :
  fitz.open fs p1 = Return doc1 → fitz.open fs p2 = Return doc2 →
  (∀ i page1 page2, doc1 !! i = Some page1 → doc2 !! i = Some page2 →
     length (page_samples page1) = length (page_samples page2)) →
  assert_documents_equal fs p1 p2 0 = Return true
  ↔ page_samples <$> doc1 = page_samples <$> doc2.
Proof.
  intros H1 H2 Hlen. rewrite (assert_documents_equal_True _ _ _ _ _ _ H1 H2).
  rewrite list_eq_Forall2, Forall2_fmap, !Forall2_same_length_lookup.
  split; intros [Hn H]; (split; [done|]); intros i q1 q2 Hq1 Hq2.
  - apply samples_diff_zero; [by eapply Hlen|].
    pose proof (samples_diff_range (page_samples q1) (page_samples q2)).
    specialize (H i q1 q2 Hq1 Hq2). apply pages_agree_nonneg in H; lia.
  - apply pages_agree_nonneg; [done|].
    rewrite (H i q1 q2 Hq1 Hq2), samples_diff_refl. lia.
Qed.

Lemma assert_documents_equal_exact_witness :
  fitz.open sample_fs "a.pdf" = Return doc_a ∧
  fitz.open sample_fs "d.pdf" = Return doc_d ∧
  (assert_documents_equal sample_fs "a.pdf" "d.pdf" 0 = Return true
   ↔ page_samples <$> doc_a = page_samples <$> doc_d).
Proof.
  split_and!; [reflexivity|reflexivity|].
  apply (assert_documents_equal_exact sample_fs "a.pdf" "d.pdf" doc_a doc_d);
    [reflexivity|reflexivity|].
  intros [|[|i]] q1 q2 Hq1 Hq2; unfold doc_a, doc_d in *; simpl in *;
    simplify_eq; reflexivity.
Defined.

(** X9. A difference never exceeds 255 times the number of samples
    compared: documents with as many pages are found equal as soon as the
    tolerance reaches 255 times the sample count of every page of the
    first. *)
Theorem assert_documents_equal_tolerance_bound fs p1 p2 tolerance doc1 doc2 :
  fitz.open fs p1 = Return doc1 → fitz.open fs p2 = Return doc2 →
  length doc1 = length doc2 →
  (∀ page, page ∈ doc1 → 255 * Z.of_nat (length (page_samples page)) ≤ tolerance) →
  assert_documents_equal fs p1 p2 tolerance = Return true.
Proof.
  intros H1 H2 Hn Hb. rewrite (assert_documents_equal_True _ _ _ _ _ _ H1 H2).
  apply Forall2_same_length_lookup. split; [done|].
  intros i q1 q2 Hq1 Hq2 [_ Hgt].
  pose proof (samples_diff_range (page_samples q1) (page_samples q2)) as Hr.
  specialize (Hb q1 (list_elem_of_lookup_2 _ _ _ Hq1)).
  unfold page_samples in *. lia.
Qed.

Lemma assert_documents_equal_tolerance_bound_witness :
  fitz.open sample_fs "a.pdf" = Return doc_a ∧
  fitz.open sample_fs "b.pdf" = Return doc_b ∧
  length doc_a = length doc_b ∧
  assert_documents_equal sample_fs "a.pdf" "b.pdf" 765 = Return true.
Proof.
  split_and!; [reflexivity|reflexivity|reflexivity|].
  apply (assert_documents_equal_tolerance_bound sample_fs "a.pdf" "b.pdf" 765
           doc_a doc_b); [reflexivity|reflexivity|reflexivity|].
  intros page [->|[->|[]%elem_of_nil]%elem_of_cons]%elem_of_cons;
    vm_compute; discriminate.
Defined.

(** X10. For documents whose pages have sample sequences of equal length
    pairwise, tolerances add up: equal within [t1] to a second document
    that is equal within [t2] to a third means equal to the third within
    [t1 + t2]. *)
Theorem assert_documents_equal_triangle fs p1 p2 p3 t1 t2 doc1 doc2 doc3 :
  fitz.open fs p1 = Return doc1 → fitz.open fs p2 = Return doc2 →
  fitz.open fs p3 = Return doc3 →
  0 ≤ t1 → 0 ≤ t2 →
  Forall2 (λ q1 q2, length (page_samples q1) = length (page_samples q2)) doc1 doc2 →
  Forall2 (λ q2 q3, length (page_samples q2) = length (page_samples q3)) doc2 doc3 →
  assert_documents_equal fs p1 p2 t1 = Return true →
  assert_documents_equal fs p2 p3 t2 = Return true →
  assert_documents_equal fs p1 p3 (t1 + t2) = Return true.
Proof.
  intros H1 H2 H3 Ht1 Ht2 Hl12 Hl23.
  rewrite (assert_documents_equal_True _ _ _ _ _ _ H1 H2),
          (assert_documents_equal_True _ _ _ _ _ _ H2 H3),
          (assert_documents_equal_True _ _ _ _ _ _ H1 H3).
  rewrite !Forall2_same_length_lookup in *.
  destruct Hl12 as [Hn12 Hl12], Hl23 as [Hn23 Hl23].
  intros [_ Ha12] [_ Ha23]. split; [lia|].
  intros i q1 q3 Hq1 Hq3.
  destruct (lookup_lt_is_Some_2 doc2 i) as [q2 Hq2].
  { apply lookup_lt_Some in Hq1. lia. }
  apply pages_agree_nonneg; [lia|].
  specialize (Ha12 i q1 q2 Hq1 Hq2). specialize (Ha23 i q2 q3 Hq2 Hq3).
  apply pages_agree_nonneg in Ha12; [|done].
  apply pages_agree_nonneg in Ha23; [|done].
  pose proof (samples_diff_triangle (page_samples q1) (page_samples q2)
                (page_samples q3) (Hl12 i q1 q2 Hq1 Hq2) (Hl23 i q2 q3 Hq2 Hq3)).
  lia.
Qed.

Lemma assert_documents_equal_triangle_witness :
  fitz.open sample_fs2 "a.pdf" = Return doc_a ∧
  fitz.open sample_fs2 "b.pdf" = Return doc_b ∧
  fitz.open sample_fs2 "f.pdf" = Return doc_f ∧
  assert_documents_equal sample_fs2 "a.pdf" "b.pdf" 2 = Return true ∧
  assert_documents_equal sample_fs2 "b.pdf" "f.pdf" 2 = Return true ∧
  assert_documents_equal sample_fs2 "a.pdf" "f.pdf" (2 + 2) = Return true.
Proof.
  assert (assert_documents_equal sample_fs2 "a.pdf" "b.pdf" 2 = Return true) as Hab
    by (vm_compute; reflexivity).
  assert (assert_documents_equal sample_fs2 "b.pdf" "f.pdf" 2 = Return true) as Hbf
    by (vm_compute; reflexivity).
  split_and!; [reflexivity|reflexivity|reflexivity|exact Hab|exact Hbf|].
  apply (assert_documents_equal_triangle sample_fs2 "a.pdf" "b.pdf" "f.pdf" 2 2
           doc_a doc_b doc_f);
    [reflexivity|reflexivity|reflexivity|lia|lia| | |exact Hab|exact Hbf];
    repeat constructor.
Defined.

Lemma seq_middle_inv (n : nat) (before after : list nat) (i : nat) :
  seq 0 n = before ++ i :: after → before = seq 0 i ∧ (i < n)%nat.
Proof.
  intros Hs.
  assert (seq 0 n !! length before = Some i) as Hi
    by (rewrite Hs; apply list_lookup_middle; done).
  apply lookup_seq in Hi as [Hi Hlt]. simpl in Hi. subst i. split; [|done].
  rewrite <-(take_app_length before (length before :: after)) at 1.
  rewrite <-Hs, take_seq. f_equal. lia.
Qed.

(** X8. With as many pages in both documents, the [AssertionError] names
    the first page that fails: its message carries that page's number,
    counted from 1, and difference, and every page before it passed. *)
Theorem assert_documents_equal_first_page fs p1 p2 tolerance doc1 doc2 msg :
  fitz.open fs p1 = Return doc1 → fitz.open fs p2 = Return doc2 →
  length doc1 = length doc2 →
  assert_documents_equal fs p1 p2 tolerance = Raise (AssertionError msg) →
  ∃ i page1 page2,
    doc1 !! i = Some page1 ∧ doc2 !! i = Some page2 ∧
    ¬ pages_agree tolerance page1 page2 ∧
    msg = page_differs_message i tolerance
            (samples_diff (page_samples page1) (page_samples page2)) ∧
    Forall2 (pages_agree tolerance) (take i doc1) (take i doc2).
Proof.
  intros H1 H2 Hn. rewrite (assert_documents_equal_opened _ _ _ _ _ _ H1 H2).
  rewrite decide_False by (intros ?; done).
  destruct (for_pages doc1 doc2 tolerance (seq 0 (length doc1))) as [[]|e] eqn:E;
    [done|].
  rewrite result_bind_Raise. intros [= ->].
  destruct (for_pages_first _ _ _ _ _ (range_valid _ _ Hn) E)
    as (before & i & after & q1 & q2 & Hs & Hb & Hq1 & Hq2 & Hd & [= ->]).
  apply seq_middle_inv in Hs as [-> Hi].
  exists i, q1, q2. split_and!; try done.
  { intros Ha. by apply Ha. }
  assert (Forall (λ j, is_Some (doc1 !! j) ∧ is_Some (doc2 !! j)) (seq 0 i)) as Hv.
  { apply Forall_forall. intros j Hj%elem_of_seq.
    split; apply lookup_lt_is_Some; lia. }
  destruct (for_pages_cases doc1 doc2 tolerance _ Hv)
    as [[_ Hok]|(j & ? & ? & _ & _ & _ & _ & Hr)]; [|congruence].
  apply Forall2_same_length_lookup. split; [by rewrite !length_take, Hn|].
  intros j r1 r2 [Hr1 Hj]%lookup_take_Some [Hr2 _]%lookup_take_Some.
  eapply Hok; [|done..]. apply elem_of_seq. lia.
Qed.

Lemma assert_documents_equal_first_page_witness :
  fitz.open sample_fs "a.pdf" = Return doc_a ∧
  fitz.open sample_fs "b.pdf" = Return doc_b ∧
  length doc_a = length doc_b ∧
  assert_documents_equal sample_fs "a.pdf" "b.pdf" 1 =
    Raise (AssertionError "Page 2 differs beyond tolerance level 1. Difference: 2.") ∧
  ∃ i page1 page2,
    doc_a !! i = Some page1 ∧ doc_b !! i = Some page2 ∧
    ¬ pages_agree 1 page1 page2 ∧
    "Page 2 differs beyond tolerance level 1. Difference: 2." =
      page_differs_message i 1
        (samples_diff (page_samples page1) (page_samples page2)) ∧
    Forall2 (pages_agree 1) (take i doc_a) (take i doc_b).
Proof.
  assert (assert_documents_equal sample_fs "a.pdf" "b.pdf" 1 =
    Raise (AssertionError "Page 2 differs beyond tolerance level 1. Difference: 2."))
    as Hr by (vm_compute; reflexivity).
  split_and!; [reflexivity|reflexivity|reflexivity|exact Hr|].
  apply (assert_documents_equal_first_page sample_fs "a.pdf" "b.pdf" 1 doc_a doc_b);
    [reflexivity|reflexivity|reflexivity|exact Hr].
Defined.
